(** * S2S3-Auto-Submit: a shallow embedding of [S2S3_Submit.py] and
      [s2s_check.py], and the properties of their specification.

    The two scripts are embedded as Rocq functions over an explicit world
    (file system, wall clock, trace of observable events).  Python
    exceptions are an explicit result constructor; external commands are
    answers of an environment. *)

From Stdlib Require Import ZArith Lia Ascii DecimalString.
From stdpp Require Import base option list strings gmap.

Local Open Scope Z_scope.

(** ** Python values and exceptions *)

Inductive exn :=
| ValueError
| OverflowError
| OSError
| TimeoutExpired.

Inductive res (A : Type) :=
| Ok (a : A)
| Raise (e : exn).
Arguments Ok {A} a.
Arguments Raise {A} e.

Definition res_bind {A B} (m : res A) (k : A -> res B) : res B :=
  match m with
  | Ok a => k a
  | Raise e => Raise e
  end.

(** ** The part of [datetime] the scripts use *)

Module PyDatetime.

Definition MINYEAR : Z := 1.
Definition MAXYEAR : Z := 9999.

Definition is_leap (y : Z) : bool :=
  (y mod 4 =? 0) && (negb (y mod 100 =? 0) || (y mod 400 =? 0)).

Definition days_in_month (y m : Z) : Z :=
  if m =? 2 then (if is_leap y then 29 else 28)
  else if (m =? 4) || (m =? 6) || (m =? 9) || (m =? 11) then 30
  else 31.

(** Number of days before January 1st of year [y]. *)
Definition days_before_year (y : Z) : Z :=
  let y' := y - 1 in
  y' * 365 + y' / 4 - y' / 100 + y' / 400.

(** The table [_DAYS_BEFORE_MONTH]. *)
Definition DAYS_BEFORE_MONTH (m : Z) : Z :=
  match m with
  | 1 => 0 | 2 => 31 | 3 => 59 | 4 => 90 | 5 => 120 | 6 => 151
  | 7 => 181 | 8 => 212 | 9 => 243 | 10 => 273 | 11 => 304 | 12 => 334
  | _ => 0
  end.

Definition days_before_month (y m : Z) : Z :=
  DAYS_BEFORE_MONTH m + (if (2 <? m) && is_leap y then 1 else 0).

(** Proleptic Gregorian ordinal, January 1st of year 1 being day 1. *)
Definition ymd2ord (y m d : Z) : Z :=
  days_before_year y + days_before_month y m + d.

(** A [datetime] value.  Seconds and microseconds are never set by the
    scripts and stay zero, so they are not carried. *)
Record datetime := mk_datetime {
  year : Z; month : Z; day : Z; hour : Z; minute : Z
}.

Definition valid_date (y m d : Z) : bool :=
  (MINYEAR <=? y) && (y <=? MAXYEAR) &&
  (1 <=? m) && (m <=? 12) &&
  (1 <=? d) && (d <=? days_in_month y m).

(** [datetime(year, month, day)]: raises [ValueError] out of range. *)
Definition new (y m d : Z) : res datetime :=
  if valid_date y m d then Ok (mk_datetime y m d 0 0) else Raise ValueError.

(** [dt.replace(hour=h, minute=mi)]. *)
Definition replace (dt : datetime) (h mi : Z) : res datetime :=
  if (0 <=? h) && (h <? 24) && (0 <=? mi) && (mi <? 60)
  then Ok (mk_datetime (year dt) (month dt) (day dt) h mi)
  else Raise ValueError.

Definition toordinal (dt : datetime) : Z :=
  ymd2ord (year dt) (month dt) (day dt).

Definition to_seconds (dt : datetime) : Z :=
  toordinal dt * 86400 + hour dt * 3600 + minute dt * 60.

(** [(a - b).days]: a timedelta is normalised, its [days] is the floor. *)
Definition sub_days (a b : datetime) : Z :=
  (to_seconds a - to_seconds b) / 86400.

(** [dt - timedelta(days=1)]: the same time on the previous calendar
    day; [OverflowError] before 0001-01-01. *)
Definition minus_one_day (dt : datetime) : res datetime :=
  let (y, m, d, h, mi) := dt in
  if 1 <? d then Ok (mk_datetime y m (d - 1) h mi)
  else if 1 <? m then Ok (mk_datetime y (m - 1) (days_in_month y (m - 1)) h mi)
  else if MINYEAR <? y then Ok (mk_datetime (y - 1) 12 31 h mi)
  else Raise OverflowError.

(** *** Formatting *)

Definition digit_char (n : Z) : ascii :=
  ascii_of_nat (48 + Z.to_nat (n mod 10)).

Definition pad2 (n : Z) : string :=
  String (digit_char (n / 10)) (String (digit_char n) "").

Definition pad4 (n : Z) : string :=
  String (digit_char (n / 1000)) (String (digit_char (n / 100))
    (String (digit_char (n / 10)) (String (digit_char n) ""))).

(** A number in decimal, with no padding. *)
Definition decimal (n : Z) : string := NilZero.string_of_int (Z.to_int n).

(** [strftime] for the five format strings of [s2s_check.py].  [%m],
    [%d], [%H] and [%M] are two digits.  [%Y] is the year as the C library
    writes it: on Linux, where the scripts and their paths live, in decimal
    with no leading zeros, so that a year below 1000 has fewer than four
    digits. *)
Definition strftime_Ymd_HMz (dt : datetime) : string :=   (* "%Y%m%d_%H%Mz" *)
  decimal (year dt) +:+ pad2 (month dt) +:+ pad2 (day dt) +:+ "_" +:+
  pad2 (hour dt) +:+ pad2 (minute dt) +:+ "z".
Definition strftime_Ymd_Hz (dt : datetime) : string :=    (* "%Y%m%d_%Hz" *)
  decimal (year dt) +:+ pad2 (month dt) +:+ pad2 (day dt) +:+ "_" +:+
  pad2 (hour dt) +:+ "z".
Definition strftime_YY (dt : datetime) : string :=        (* "Y%Y" *)
  "Y" +:+ decimal (year dt).
Definition strftime_Mm (dt : datetime) : string :=        (* "M%m" *)
  "M" +:+ pad2 (month dt).
Definition strftime_HM (dt : datetime) : string :=        (* "%H:%M" *)
  pad2 (hour dt) +:+ ":" +:+ pad2 (minute dt).
Definition strftime_Y_m_d (dt : datetime) : string :=     (* "%Y-%m-%d" *)
  decimal (year dt) +:+ "-" +:+ pad2 (month dt) +:+ "-" +:+ pad2 (day dt).

(** The text of the date [y]-[m]-[d] as [%Y-%m-%d] reads it back: four
    digits of year, two of month, two of day. *)
Definition isoformat (y m d : Z) : string :=
  pad4 y +:+ "-" +:+ pad2 m +:+ "-" +:+ pad2 d.

(** *** Parsing: [datetime.strptime(s, '%Y-%m-%d')]

    [_strptime] turns the format into a regular expression and matches
    it at the start of the string.  Each directive is a group of
    alternatives tried in order, with backtracking; the functions below
    return the matches of a group in that order. *)

Definition digit_val (c : ascii) : option Z := Z.of_nat <$> Ascii.is_nat c.

Definition in_range (lo hi : Z) (c : ascii) : option Z :=
  match digit_val c with
  | Some v => if (lo <=? v) && (v <=? hi) then Some v else None
  | None => None
  end.

(** [%Y] is [\d\d\d\d]. *)
Definition re_Y (s : string) : list (Z * string) :=
  match s with
  | String a (String b (String c (String d rest))) =>
      match digit_val a, digit_val b, digit_val c, digit_val d with
      | Some a, Some b, Some c, Some d =>
          [(1000 * a + 100 * b + 10 * c + d, rest)]
      | _, _, _, _ => []
      end
  | _ => []
  end.

(** One alternative made of a fixed first character and a ranged digit. *)
Definition alt_pair (c0 : ascii) (tens lo hi : Z) (s : string)
  : list (Z * string) :=
  match s with
  | String a (String b rest) =>
      if Ascii.eqb a c0 then
        match in_range lo hi b with
        | Some v => [(tens + v, rest)]
        | None => []
        end
      else []
  | _ => []
  end.

(** One alternative made of a ranged tens digit and any digit. *)
Definition alt_two (lo hi : Z) (s : string) : list (Z * string) :=
  match s with
  | String a (String b rest) =>
      match in_range lo hi a, digit_val b with
      | Some t, Some v => [(10 * t + v, rest)]
      | _, _ => []
      end
  | _ => []
  end.

(** One alternative made of a single ranged digit. *)
Definition alt_one (lo hi : Z) (s : string) : list (Z * string) :=
  match s with
  | String a rest =>
      match in_range lo hi a with
      | Some v => [(v, rest)]
      | None => []
      end
  | _ => []
  end.

(** [%m] is [1[0-2]|0[1-9]|[1-9]]. *)
Definition re_m (s : string) : list (Z * string) :=
  alt_pair "1" 10 0 2 s ++ alt_pair "0" 0 1 9 s ++ alt_one 1 9 s.

(** [%d] is [3[01]|[12]\d|0[1-9]|[1-9]| [1-9]]. *)
Definition re_d (s : string) : list (Z * string) :=
  alt_pair "3" 30 0 1 s ++ alt_two 1 2 s ++ alt_pair "0" 0 1 9 s ++
  alt_one 1 9 s ++ alt_pair " " 0 1 9 s.

Definition re_lit (c : ascii) (s : string) : list string :=
  match s with
  | String a rest => if Ascii.eqb a c then [rest] else []
  | _ => []
  end.

(** All the ways the month-and-day tail [-%m-%d] matches, best first. *)
Definition re_tail (s : string) : list (Z * Z * string) :=
  r1 ← re_lit "-" s;
  '(m, r2) ← re_m r1;
  r3 ← re_lit "-" r2;
  '(d, r4) ← re_d r3;
  [(m, d, r4)].

Definition re_Y_m_d (s : string) : list (Z * Z * Z * string) :=
  '(y, r0) ← re_Y s;
  '(m, d, r) ← re_tail r0;
  [(y, m, d, r)].

(** The first match wins; text left after it is "unconverted data";
    the fields then go through the [datetime] constructor. *)
Definition strptime (s : string) : res datetime :=
  match head (re_Y_m_d s) with
  | Some (y, m, d, "") => new y m d
  | Some (_, _, _, String _ _) => Raise ValueError
  | None => Raise ValueError
  end.

(** A check run over every month and day: the tail of the text of
    month [m], day [d] parses back to them with nothing left. *)
Definition tail_ok (m d : Z) : bool :=
  match head (re_tail ("-" +:+ pad2 m +:+ "-" +:+ pad2 d)) with
  | Some (m', d', "") => (m' =? m) && (d' =? d)
  | _ => false
  end.

End PyDatetime.

Global Instance res_ret : MRet res := fun A a => Ok a.
Global Instance res_mbind : MBind res := fun A B k m => res_bind m k.

(** ** Strings and paths

    A Python [str] is a Rocq [string] whose characters are its code
    points, taken below 256. *)

Fixpoint startswith (s p : string) {struct p} : bool :=
  match p, s with
  | "", _ => true
  | String a p', String b s' => Ascii.eqb a b && startswith s' p'
  | String _ _, "" => false
  end.

Definition endswith (s p : string) : bool :=
  startswith (String.rev s) (String.rev p).

(** [needle in hay] on Python strings. *)
Fixpoint str_in (needle hay : string) : bool :=
  startswith hay needle ||
  match hay with
  | "" => false
  | String _ hay' => str_in needle hay'
  end.

(** [posixpath.join(a, *ps)]. *)
Definition posix_join (a : string) (ps : list string) : string :=
  foldl (fun path b =>
           if startswith b "/" then b
           else if String.eqb path "" || endswith path "/" then path +:+ b
           else path +:+ "/" +:+ b) a ps.

(** ** The file system *)

(** A path names nothing, a regular file, or a directory.  A file is kept
    as the lines a text-mode iteration over it yields. *)
Inductive node :=
| File (lines : list string)
| Dir.

Abbreviation filesystem := (gmap string node).

Definition path_exists (fs : filesystem) (p : string) : bool :=
  match fs !! p with Some _ => true | None => false end.

Definition isfile (fs : filesystem) (p : string) : bool :=
  match fs !! p with Some (File _) => true | _ => false end.

(** The lines [for line in open(p)] runs over (called on regular files). *)
Definition readlines (fs : filesystem) (p : string) : list string :=
  match fs !! p with Some (File ls) => ls | _ => [] end.

(** ** [s2s_check.py]

    [main] is given the three integers [parse_args] returns; [verbose]
    only switches the prints on and is left out. *)

Module S2SCheck.
Import PyDatetime.

Definition CMAP_path : string := "/discover/nobackup/dao_ops/PrecipCorr/CMAPcorr".
Definition CMAP_prefix : string := "d5124_rpit_jan12.tavg1_2d_lfo_Nx_CMAPcorr.".
Definition CMAP_suffix : string := ".nc4".

Definition anaeta_path : string :=
  "/discover/nobackup/dao_ops/scratch/d5124_rpit_jan12/ana".
Definition anaeta_prefix : string := "d5124_rpit_jan12.ana.eta.".
Definition anaeta_suffix : string := ".nc4".

Definition OSTIA_file : string :=
  "/home/dao_ops/D_BOSS/schedule/files/discover36/task_status".

(** [", ".join(parts)] *)
Fixpoint join_comma (parts : list string) : string :=
  match parts with
  | [] => ""
  | [p] => p
  | p :: ps => p +:+ ", " +:+ join_comma ps
  end.

Definition CMAP_file_of (inputday : datetime) : res string :=
  t ← replace inputday 23 30;
  CMAP_target_time ← minus_one_day t;
  let CMAP_target_time_string := strftime_Ymd_HMz CMAP_target_time in
  let CMAP_filename := CMAP_prefix +:+ CMAP_target_time_string +:+ CMAP_suffix in
  mret (posix_join "/" [CMAP_path; CMAP_filename]).

Definition anaeta_file_of (inputday : datetime) : res string :=
  anaeta_target_time ← replace inputday 18 (minute inputday);
  let anaeta_target_time_string := strftime_Ymd_Hz anaeta_target_time in
  let anaeta_target_year_string := strftime_YY anaeta_target_time in
  let anaeta_target_month_string := strftime_Mm anaeta_target_time in
  let anaeta_filename :=
    anaeta_prefix +:+ anaeta_target_time_string +:+ anaeta_suffix in
  mret (posix_join "/" [anaeta_path; anaeta_target_year_string;
                        anaeta_target_month_string; anaeta_filename]).

Definition OSTIA_string_of (inputday : datetime) : string :=
  let OSTIA_target_time := inputday in
  let OSTIA_target_time_string := strftime_HM OSTIA_target_time in
  let OSTIA_target_date_string := strftime_Y_m_d OSTIA_target_time in
  join_comma ["QUART-OSTIA-REYNOLDS-01"; OSTIA_target_time_string;
              OSTIA_target_date_string; "COMPLETE"].

(** The local variables of [main] once the three checks are done. *)
Record checks := mk_checks {
  CMAP_found : bool;
  anaeta_found : bool;
  OSTIA_found : bool;
  rccode : Z
}.

(** The body of [main] up to the final [sys.exit]. *)
Definition run_checks (fs : filesystem) (year month day : Z) : res checks :=
  let rccode := 0 in
  inputday ← new year month day;
  CMAP_file ← CMAP_file_of inputday;
  let '(CMAP_found, rccode) :=
    if isfile fs CMAP_file then (true, rccode) else (false, rccode + 1) in
  anaeta_file ← anaeta_file_of inputday;
  let '(anaeta_found, rccode) :=
    if isfile fs anaeta_file then (true, rccode) else (false, rccode + 10) in
  let OSTIA_string := OSTIA_string_of inputday in
  let OSTIA_found :=
    if isfile fs OSTIA_file then
      foldl (fun found line => if str_in OSTIA_string line then true else found)
            false (readlines fs OSTIA_file)
    else false in
  let rccode := if negb OSTIA_found then rccode + 100 else rccode in
  mret (mk_checks CMAP_found anaeta_found OSTIA_found rccode).

(** [main]: the exit status of the probe, or the exception that ends it. *)
Definition main (fs : filesystem) (year month day : Z) : res Z :=
  c ← run_checks fs year month day;
  if CMAP_found c && anaeta_found c && OSTIA_found c
  then mret 0
  else mret (rccode c).

(** The status code the specification assigns to three missing-source
    flags, and the reading of a code digit by digit. *)
Definition b2z (b : bool) : Z := if b then 1 else 0.

Definition status_code (a_missing b_missing c_missing : bool) : Z :=
  1 * b2z a_missing + 10 * b2z b_missing + 100 * b2z c_missing.

Definition decode_status (code : Z) : bool * bool * bool :=
  (code mod 10 =? 1, (code / 10) mod 10 =? 1, (code / 100) mod 10 =? 1).

(** The completion record the third check looks for. *)
Definition OSTIA_key (y m d : Z) : string :=
  "QUART-OSTIA-REYNOLDS-01, 00:00, " +:+
  strftime_Y_m_d (mk_datetime y m d 0 0) +:+ ", COMPLETE".

(** The same with the year in four digits. *)
Definition OSTIA_key_iso (y m d : Z) : string :=
  "QUART-OSTIA-REYNOLDS-01, 00:00, " +:+ isoformat y m d +:+ ", COMPLETE".

(** The year in decimal is the year in four digits. *)
Definition four_digits_ok (y : Z) : bool :=
  String.eqb (decimal y) (pad4 y).

End S2SCheck.

(** ** [S2S3_Submit.py] *)

Module S2S3Submit.
Import PyDatetime.

(** *** Python strings *)

Definition nl : string := String (ascii_of_nat 10) "".

(** [str(n)] for an [int]. *)
Definition str_int (n : Z) : string := NilZero.string_of_int (Z.to_int n).

(** [c.isspace()], for the code points below 256. *)
Definition isspace (c : ascii) : bool :=
  let n := Z.of_nat (nat_of_ascii c) in
  ((9 <=? n) && (n <=? 13)) || ((28 <=? n) && (n <=? 32)) ||
  (n =? 133) || (n =? 160).

Fixpoint lstrip (s : string) : string :=
  match s with
  | "" => ""
  | String c s' => if isspace c then lstrip s' else s
  end.

Definition rstrip (s : string) : string := String.rev (lstrip (String.rev s)).

Definition strip (s : string) : string := rstrip (lstrip s).

(** The pieces of [s] between separators, from [cur] (reversed) on. *)
Fixpoint split_sep (cur s : string) : list string :=
  match s with
  | "" => [String.rev cur]
  | String c s' =>
      if Ascii.eqb c "/" then String.rev cur :: split_sep "" s'
      else split_sep (String c cur) s'
  end.

(** The parts [pathlib] keeps of a path: empty pieces and [.] go. *)
Definition path_parts (s : string) : list string :=
  filter (fun p => p <> "" /\ p <> ".") (split_sep "" s).

Fixpoint join_sep (parts : list string) : string :=
  match parts with
  | [] => ""
  | [p] => p
  | p :: ps => p +:+ "/" +:+ join_sep ps
  end.

(** The root of an absolute path: two leading separators are kept, one
    or three and more are one. *)
Definition path_root (s : string) : string :=
  if startswith s "//" && negb (startswith s "///") then "//" else "/".

(** [str(Path(a) / b)], for [a] the text of a path: an absolute [b]
    replaces [a]; the parts of a relative [b] are added to it. *)
Definition path_div (a b : string) : string :=
  if startswith b "/" then path_root b +:+ join_sep (path_parts b)
  else
    match path_parts b with
    | [] => a
    | ps =>
        if endswith a "/" then a +:+ join_sep ps
        else a +:+ "/" +:+ join_sep ps
    end.

(** *** The world the script runs in *)

(** What an external command does once launched: it runs for some
    seconds and exits, or the launch itself fails. *)
Inductive behaviour :=
| Exits (runtime : N) (returncode : Z) (stdout stderr : string)
| FailsToStart.

(** The environment answers each launch from the command line, the file
    system the child sees, and the number of launches before it. *)
Definition env := list string -> filesystem -> nat -> behaviour.

Record CompletedProcess := mk_completed {
  returncode : Z; stdout : string; stderr : string
}.

Record NotificationEvent := mk_notification {
  n_success : bool;
  n_subject : string;
  n_body : string;
  n_recipients : list string
}.

Inductive event :=
| EvRun (cmd : list string) (cwd : option string) (seen : filesystem)
| EvSleep (secs : Z)
| EvUnlink (path : string)
| EvNotify (n : NotificationEvent).

Record world := mk_world {
  fs : filesystem;
  clock : Z;            (* wall clock, in seconds *)
  launched : nat;       (* commands launched so far *)
  trace : list event;
  stat_fails : gset string
    (* paths on which [Path.exists()] raises: [stat] fails there with an
       error other than the four taken for absence (a name too long, a
       parent directory that may not be searched) *)
}.

(** Time passes in a launched command and in a sleep, nowhere else: a
    command that runs takes its run time, cut at the timeout when there is
    one; a launch that fails takes none; [time.sleep(s)] takes [s]. *)

(** Calls to [logger] and [print] are not modelled: they write
    diagnostics, return nothing and change nothing the functions below
    compute.  [send_notification], which the source implements by
    logging, is kept as the trace event [EvNotify]. *)

(** A computation reads and changes the world and ends with a value or
    a raised exception; [None] is the poll loop running out of fuel. *)
Definition M (A : Type) := world -> option (res A * world).

Definition M_ret {A} (a : A) : M A := fun w => Some (Ok a, w).

Definition M_bind {A B} (m : M A) (k : A -> M B) : M B := fun w =>
  match m w with
  | Some (Ok a, w') => k a w'
  | Some (Raise e, w') => Some (Raise e, w')
  | None => None
  end.

#[global] Instance M_mret : MRet M := @M_ret.
#[global] Instance M_mbind : MBind M := fun A B k m => M_bind m k.

Definition lift {A} (r : res A) : M A := fun w => Some (r, w).

(** [try: m] with the exception, if any, handed to the handlers. *)
Definition attempt {A} (m : M A) : M (res A) := fun w =>
  match m w with
  | Some (r, w') => Some (Ok r, w')
  | None => None
  end.

Definition record (e : event) (w : world) : world :=
  mk_world (fs w) (clock w) (launched w) (trace w ++ [e]) (stat_fails w).

Definition emit (e : event) : M unit := fun w => Some (Ok (), record e w).

Definition tick (secs : Z) (w : world) : world :=
  mk_world (fs w) (clock w + secs) (launched w) (trace w) (stat_fails w).

Definition time_time : M Z := fun w => Some (Ok (clock w), w).

Definition time_sleep (secs : Z) : M unit := fun w =>
  Some (Ok (), tick secs (record (EvSleep secs) w)).

(** [subprocess.run(cmd, cwd=cwd, capture_output=True, text=True,
    timeout=timeout)]. *)
Definition subprocess_run (E : env) (cmd : list string) (cwd : option string)
    (timeout : option Z) : M CompletedProcess := fun w =>
  let w1 := mk_world (fs w) (clock w) (S (launched w))
                     (trace w ++ [EvRun cmd cwd (fs w)]) (stat_fails w) in
  match E cmd (fs w) (launched w) with
  | FailsToStart => Some (Raise OSError, w1)
  | Exits runtime rc out err =>
      match timeout with
      | Some t =>
          if t <? Z.of_N runtime
          then Some (Raise TimeoutExpired, tick t w1)
          else Some (Ok (mk_completed rc out err), tick (Z.of_N runtime) w1)
      | None => Some (Ok (mk_completed rc out err), tick (Z.of_N runtime) w1)
      end
  end.

(** [Path(p).exists()]: true on a file and on a directory, false on a
    path that names nothing; where [stat] fails otherwise, the [OSError]
    is raised. *)
Definition exists_ (p : string) : M bool := fun w =>
  if decide (p ∈ stat_fails w) then Some (Raise OSError, w)
  else Some (Ok (path_exists (fs w) p), w).

(** [Path(p).unlink(missing_ok=True)]: removing a directory is an error. *)
Definition unlink_missing_ok (p : string) : M unit := fun w =>
  let tr := trace w ++ [EvUnlink p] in
  match fs w !! p with
  | None => Some (Ok (), mk_world (fs w) (clock w) (launched w) tr (stat_fails w))
  | Some (File _) =>
      Some (Ok (), mk_world (delete p (fs w)) (clock w) (launched w) tr
                            (stat_fails w))
  | Some Dir =>
      Some (Raise OSError, mk_world (fs w) (clock w) (launched w) tr
                                    (stat_fails w))
  end.

(** *** [class S2SForecastRunner] *)

Record S2SForecastRunner := mk_runner {
  experiment_name : string;
  base_path : string;
  experiment_dir : string;
  script_dir : string;
  forecast_dates_file : string;
  check_script : string;
  job_script : string;
  check_interval : Z;
  max_wait_time : Z;
  email_list : list string
}.

Definition init (experiment_name : string) : S2SForecastRunner :=
  let base_path := "/home/gmaofcst/geos-s2s-3" in
  let experiment_dir := path_div base_path experiment_name in
  let script_dir := "/home/gmaofcst/ODAS/OBS/V3/D_BOSS" in
  mk_runner experiment_name base_path experiment_dir script_dir
    (path_div script_dir "forecast_dates.txt")
    (path_div script_dir "s2s_check.py")
    (path_div experiment_dir "gcm_run.j")
    900 7200
    ["wesley.j.davis@nasa.gov"].

(** The [for] loop of [validate_experiment]: the required files that do
    not exist are appended to [missing_files], in order. *)
Fixpoint collect_missing (required_files missing_files : list string)
  : M (list string) :=
  match required_files with
  | [] => mret missing_files
  | file_path :: rest =>
      found ← exists_ file_path;
      if negb found
      then collect_missing rest (missing_files ++ [file_path])
      else collect_missing rest missing_files
  end.

Definition validate_experiment (self : S2SForecastRunner) : M bool :=
  dir_ok ← exists_ (experiment_dir self);
  if negb dir_ok then mret false
  else
    let required_files :=
      [forecast_dates_file self; check_script self; job_script self] in
    missing_files ← collect_missing required_files [];
    match missing_files with
    | _ :: _ => mret false
    | [] => mret true
    end.

Definition check_forecast_date (input_date : string) : res bool :=
  forecast_date ← strptime input_date;
  jan_1 ← new (year forecast_date) 1 1;
  let days_since_jan_1 := sub_days forecast_date jan_1 in
  mret (days_since_jan_1 mod 5 =? 0).

Definition probe_timeout : Z := 300.

(** The [while] loop of [wait_for_files]. *)
Fixpoint poll (fuel : nat) (self : S2SForecastRunner) (E : env)
    (check_cmd : list string) (start_time : Z) : M bool :=
  match fuel with
  | O => fun _ => None
  | S fuel' =>
      now ← time_time;
      if now - start_time <? max_wait_time self then
        r ← attempt (subprocess_run E check_cmd None (Some probe_timeout));
        match r with
        | Ok result =>
            if returncode result =? 0 then mret true
            else time_sleep (check_interval self);;
                 poll fuel' self E check_cmd start_time
        | Raise TimeoutExpired =>
            time_sleep (check_interval self);;
            poll fuel' self E check_cmd start_time
        | Raise _ =>
            time_sleep (check_interval self);;
            poll fuel' self E check_cmd start_time
        end
      else mret false
  end.

(** Fuel that the loop cannot use up: every turn that goes round costs
    at least [check_interval]. *)
Definition poll_fuel (self : S2SForecastRunner) : nat :=
  Z.to_nat (max_wait_time self / check_interval self) + 2.

Definition check_cmd_of (self : S2SForecastRunner) (dt : datetime)
  : list string :=
  [check_script self; "--verbose";
   "--year"; str_int (year dt);
   "--month"; str_int (month dt);
   "--day"; str_int (day dt)].

Definition wait_for_files (self : S2SForecastRunner) (E : env)
    (forecast_date : string) : M bool :=
  dt ← lift (strptime forecast_date);
  let check_cmd := check_cmd_of self dt in
  start_time ← time_time;
  poll (poll_fuel self) self E check_cmd start_time.

Definition marker_file (self : S2SForecastRunner) : string :=
  path_div (experiment_dir self) "ODAS_Check.txt".

Definition submit_job (self : S2SForecastRunner) (E : env)
  : M (bool * option string) :=
  r ← attempt (
    unlink_missing_ok (marker_file self);;
    result ← subprocess_run E ["/usr/bin/sbatch"; job_script self]
               (Some (experiment_dir self)) None;
    if returncode result =? 0 then
      let job_id := strip (stdout result) in
      mret (true, Some job_id)
    else mret (false, None));
  match r with
  | Ok v => mret v
  | Raise _ => mret (false, None)
  end.

(** [if job_id:] *)
Definition truthy (job_id : option string) : bool :=
  match job_id with
  | Some (String _ _) => true
  | _ => false
  end.

(** The subject and body [send_notification] builds. *)
Definition build_notification (self : S2SForecastRunner) (success : bool)
    (message : string) (job_id : option string) : NotificationEvent :=
  let '(subject, body) :=
    if success then
      let subject := "V2 ODAS Run Submitted - " +:+ experiment_name self in
      let body :=
        "V2 ODAS Run Submitted for experiment: " +:+ experiment_name self in
      let body :=
        if truthy job_id
        then body +:+ nl +:+ "Job ID: " +:+ default "" job_id
        else body in
      (subject, body)
    else
      ("V2 ODAS Run Failed - " +:+ experiment_name self,
       "V2 ODAS Run Failed for experiment: " +:+ experiment_name self +:+
       nl +:+ "Error: " +:+ message) in
  mk_notification success subject body (email_list self).

Definition send_notification (self : S2SForecastRunner) (success : bool)
    (message : string) (job_id : option string) : M unit :=
  emit (EvNotify (build_notification self success message job_id)).

Definition run (self : S2SForecastRunner) (E : env) (forecast_date : string)
  : M Z :=
  valid ← validate_experiment self;
  if negb valid then
    send_notification self false "Experiment validation failed" None;;
    mret 1
  else
  eligible ← lift (check_forecast_date forecast_date);
  if negb eligible then mret 0
  else
  ready ← wait_for_files self E forecast_date;
  if negb ready then
    send_notification self false "Timeout waiting for input files" None;;
    mret 1
  else
  '(success, job_id) ← submit_job self E;
  if negb success then
    send_notification self false "Job submission failed" None;;
    mret 1
  else
  send_notification self true "" job_id;;
  mret 0.





(** *** Reading a trace *)

Definition notifications (tr : list event) : list NotificationEvent :=
  omap (fun e => match e with EvNotify n => Some n | _ => None end) tr.

Definition launches (tr : list event) : list (list string * filesystem) :=
  omap (fun e => match e with EvRun c _ f => Some (c, f) | _ => None end) tr.

Definition sleeps (tr : list event) : list Z :=
  omap (fun e => match e with EvSleep s => Some s | _ => None end) tr.

(** *** Reading the poll loop

    [beh k] is what the probe does at its [k]-th launch of one wait. *)

(** The launch ends with status 0 inside the probe's own timeout. *)
Definition attempt_ready (b : behaviour) : bool :=
  match b with
  | Exits runtime rc _ _ => (Z.of_N runtime <=? probe_timeout) && (rc =? 0)
  | FailsToStart => false
  end.

(** Seconds one launch takes off the clock. *)
Definition attempt_cost (b : behaviour) : Z :=
  match b with
  | Exits runtime _ _ _ => Z.min (Z.of_N runtime) probe_timeout
  | FailsToStart => 0
  end.

(** Seconds gone when launch [n] starts, the [n] launches before it
    having each been followed by a sleep of [interval]. *)
Fixpoint start_of (interval : Z) (beh : nat -> behaviour) (n : nat) : Z :=
  match n with
  | O => 0
  | S n' =>
      attempt_cost (beh O) + interval +
      start_of interval (fun k => beh (S k)) n'
  end.

(** The events of [n] launches that did not report ready, then the
    launch that did when [ready] holds. *)
Fixpoint poll_events (cmd : list string) (seen : filesystem) (interval : Z)
    (n : nat) (ready : bool) : list event :=
  match n with
  | O => if ready then [EvRun cmd None seen] else []
  | S n' =>
      EvRun cmd None seen :: EvSleep interval ::
      poll_events cmd seen interval n' ready
  end.

(** *** Reading a submission *)

Definition sbatch_cmd (self : S2SForecastRunner) : list string :=
  ["/usr/bin/sbatch"; job_script self].

(** What [submit_job] makes of the scheduler's answer. *)
Definition submit_outcome (b : behaviour) : bool * option string :=
  match b with
  | Exits _ rc out _ => if rc =? 0 then (true, Some (strip out)) else (false, None)
  | FailsToStart => (false, None)
  end.

Definition behaviour_time (b : behaviour) : Z :=
  match b with
  | Exits runtime _ _ _ => Z.of_N runtime
  | FailsToStart => 0
  end.

(** The events a computation added to the trace. *)
Definition added (w w' : world) : list event :=
  drop (length (trace w)) (trace w').

(** *** The state machine of the specification

    The ways through a run, the exit each one ends with, and the
    notifications each one sends.  To the ways of the specification are
    added the two that end with an exception: validation that raises, and
    a date that does not parse. *)
Inductive path :=
| ValidationError (e : exn)
| ValidationFailure
| MalformedDate (e : exn)
| EligibilitySkip
| ReadinessTimeout
| SubmissionFailure
| Submitted (job_id : option string).

Definition path_exit (p : path) : res Z :=
  match p with
  | ValidationError e => Raise e
  | ValidationFailure => Ok 1
  | MalformedDate e => Raise e
  | EligibilitySkip => Ok 0
  | ReadinessTimeout => Ok 1
  | SubmissionFailure => Ok 1
  | Submitted _ => Ok 0
  end.

Definition path_notifications (self : S2SForecastRunner) (p : path)
  : list NotificationEvent :=
  match p with
  | ValidationError _ => []
  | ValidationFailure =>
      [build_notification self false "Experiment validation failed" None]
  | MalformedDate _ => []
  | EligibilitySkip => []
  | ReadinessTimeout =>
      [build_notification self false "Timeout waiting for input files" None]
  | SubmissionFailure =>
      [build_notification self false "Job submission failed" None]
  | Submitted job_id => [build_notification self true "" job_id]
  end.

(** [takes self E date w p w1]: started in [w], the run goes the way
    [p], and [w1] is the world when its last stage is over. *)
Inductive takes (self : S2SForecastRunner) (E : env) (date : string)
    (w : world) : path -> world -> Prop :=
| takes_validation_error e :
    validate_experiment self w = Some (Raise e, w) ->
    takes self E date w (ValidationError e) w
| takes_validation_failure :
    validate_experiment self w = Some (Ok false, w) ->
    takes self E date w ValidationFailure w
| takes_malformed_date e :
    validate_experiment self w = Some (Ok true, w) ->
    strptime date = Raise e ->
    takes self E date w (MalformedDate e) w
| takes_eligibility_skip :
    validate_experiment self w = Some (Ok true, w) ->
    check_forecast_date date = Ok false ->
    takes self E date w EligibilitySkip w
| takes_readiness_timeout w1 :
    validate_experiment self w = Some (Ok true, w) ->
    check_forecast_date date = Ok true ->
    wait_for_files self E date w = Some (Ok false, w1) ->
    takes self E date w ReadinessTimeout w1
| takes_submission_failure w1 job_id w2 :
    validate_experiment self w = Some (Ok true, w) ->
    check_forecast_date date = Ok true ->
    wait_for_files self E date w = Some (Ok true, w1) ->
    submit_job self E w1 = Some (Ok (false, job_id), w2) ->
    takes self E date w SubmissionFailure w2
| takes_submitted w1 job_id w2 :
    validate_experiment self w = Some (Ok true, w) ->
    check_forecast_date date = Ok true ->
    wait_for_files self E date w = Some (Ok true, w1) ->
    submit_job self E w1 = Some (Ok (true, job_id), w2) ->
    takes self E date w (Submitted job_id) w2.

Definition notify_all (ns : list NotificationEvent) (w : world) : world :=
  foldl (fun w n => record (EvNotify n) w) w ns.

(** *** Sample worlds *)

Definition sample_fs : filesystem :=
  <["/home/gmaofcst/geos-s2s-3/exp1" := Dir]>
  (<["/home/gmaofcst/ODAS/OBS/V3/D_BOSS/forecast_dates.txt" := File []]>
  (<["/home/gmaofcst/ODAS/OBS/V3/D_BOSS/s2s_check.py" := File []]>
  (<["/home/gmaofcst/geos-s2s-3/exp1/gcm_run.j" := File []]>
  (<["/home/gmaofcst/geos-s2s-3/exp1/ODAS_Check.txt" := File []]> ∅)))).

Definition sample_world : world := mk_world sample_fs 0 0 [] ∅.

Definition is_sbatch (cmd : list string) : bool :=
  match cmd with
  | c :: _ => String.eqb c "/usr/bin/sbatch"
  | [] => false
  end.

(** The probe is ready at once and the scheduler accepts the job. *)
Definition env_accept : env := fun cmd _ _ =>
  if is_sbatch cmd
  then Exits 1 0 ("123456" +:+ nl) ""
  else Exits 2 0 "" "".


(** The probe reports not ready after 128 s seven times, then hangs. *)
Definition env_slow : env := fun cmd _ n =>
  if is_sbatch cmd then Exits 1 0 ("123456" +:+ nl) ""
  else if (n <? 7)%nat then Exits 128 1 "" ""
  else Exits 500 0 "" "".

End S2S3Submit.

(** * Proofs *)

Ltac res_simpl := cbn [mret mbind res_ret res_mbind res_bind].

Ltac m_unfold :=
  unfold mbind, mret, S2S3Submit.M_mbind, S2S3Submit.M_mret,
    S2S3Submit.M_bind, S2S3Submit.M_ret.

(** * Strings *)

Lemma app_cons (c : ascii) (s t : string) : String c s +:+ t = String c (s +:+ t).
Proof. reflexivity. Qed.

Lemma app_empty (t : string) : "" +:+ t = t.
Proof. reflexivity. Qed.

Lemma str_app_assoc (s t u : string) : (s +:+ t) +:+ u = s +:+ (t +:+ u).
Proof. induction s as [|c s IH]; [done|]. rewrite !app_cons. by f_equal. Qed.

Lemma str_app_empty_r (s : string) : s +:+ "" = s.
Proof. induction s as [|c s IH]; [done|]. rewrite app_cons. by f_equal. Qed.

Lemma startswith_spec (s p : string) :
  startswith s p = true <-> exists post, s = p +:+ post.
Proof.
  revert s. induction p as [|a p IH]; intros s; cbn.
  - split; [intros _; by exists s | done].
  - destruct s as [|b s].
    + split; [done | intros [post Hp]; discriminate].
    + rewrite andb_true_iff, IH, Ascii.eqb_eq. split.
      * intros [-> [post ->]]. by exists post.
      * intros [post Hp]. rewrite app_cons in Hp. injection Hp as -> ->. eauto.
Qed.

(** [needle in hay] holds exactly when [hay] is some text, the needle,
    and some more text. *)
Lemma str_in_spec (needle hay : string) :
  str_in needle hay = true <-> exists pre post, hay = pre +:+ needle +:+ post.
Proof.
  induction hay as [|c hay IH]; cbn [str_in]; rewrite orb_true_iff, startswith_spec.
  - split.
    + intros [[post Hp] | ?]; [|done]. by exists "", post.
    + intros (pre & post & Hp). left. destruct pre; [|discriminate].
      by exists post.
  - rewrite IH. split.
    + intros [[post Hp] | (pre & post & ->)].
      * by exists "", post.
      * by exists (String c pre), post.
    + intros (pre & post & Hp). destruct pre as [|c' pre].
      * left. by exists post.
      * right. rewrite app_cons in Hp. injection Hp as -> ->. eauto.
Qed.


(** * Calendar and date text *)

Section Calendar.
Import PyDatetime.

Lemma digit_val_digit_char (n : Z) : digit_val (digit_char n) = Some (n mod 10).
Proof.
  unfold digit_char.
  assert (Hr : 0 <= n mod 10 < 10) by (apply Z.mod_pos_bound; lia).
  assert (Hc : n mod 10 = 0 \/ n mod 10 = 1 \/ n mod 10 = 2 \/ n mod 10 = 3 \/
               n mod 10 = 4 \/ n mod 10 = 5 \/ n mod 10 = 6 \/ n mod 10 = 7 \/
               n mod 10 = 8 \/ n mod 10 = 9) by lia.
  destruct Hc as [-> | [-> | [-> | [-> | [-> | [-> | [-> | [-> | [-> | ->]]]]]]]]];
    reflexivity.
Qed.

Lemma four_digits (y : Z) :
  0 <= y <= 9999 ->
  1000 * ((y / 1000) mod 10) + 100 * ((y / 100) mod 10) +
  10 * ((y / 10) mod 10) + y mod 10 = y.
Proof. intros Hy. Z.div_mod_to_equations. lia. Qed.

Lemma re_Y_pad4 (y : Z) (rest : string) :
  0 <= y <= 9999 -> re_Y (pad4 y +:+ rest) = [(y, rest)].
Proof.
  intros Hy. unfold pad4, re_Y. rewrite !app_cons, app_empty.
  rewrite !digit_val_digit_char. by rewrite four_digits.
Qed.

Lemma tail_ok_all :
  forallb (fun m => forallb (tail_ok m) (seqZ 1 31)) (seqZ 1 12) = true.
Proof. vm_compute. reflexivity. Qed.

Lemma re_tail_pad2 (m d : Z) :
  1 <= m <= 12 -> 1 <= d <= 31 ->
  head (re_tail ("-" +:+ pad2 m +:+ "-" +:+ pad2 d)) = Some (m, d, "").
Proof.
  intros Hm Hd.
  pose proof tail_ok_all as H.
  rewrite forallb_forall in H.
  specialize (H m). rewrite <- list_elem_of_In, elem_of_seqZ in H.
  specialize (H ltac:(lia)).
  rewrite forallb_forall in H.
  specialize (H d). rewrite <- list_elem_of_In, elem_of_seqZ in H.
  specialize (H ltac:(lia)).
  unfold tail_ok in H.
  destruct (head _) as [[[m' d'] [|? ?]]|]; try discriminate.
  apply andb_true_iff in H as [?%Z.eqb_eq ?%Z.eqb_eq]. by subst.
Qed.

Lemma head_bind_tail (y : Z) (l : list (Z * Z * string)) :
  head (l ≫= (fun '(m, d, r) => [(y, m, d, r)])) =
  (fun '(m, d, r) => (y, m, d, r)) <$> head l.
Proof. by destruct l as [|[[? ?] ?] ?]. Qed.

Lemma valid_date_bounds (y m d : Z) :
  valid_date y m d = true ->
  1 <= y <= 9999 /\ 1 <= m <= 12 /\ 1 <= d <= days_in_month y m.
Proof. unfold valid_date, MINYEAR, MAXYEAR. lia. Qed.

Lemma days_in_month_le (y m : Z) : 28 <= days_in_month y m <= 31.
Proof.
  unfold days_in_month.
  destruct (m =? 2); [destruct (is_leap y); lia|].
  destruct ((m =? 4) || (m =? 6) || (m =? 9) || (m =? 11)); lia.
Qed.

(** Parsing the text of a valid date gives the date back, at midnight. *)
Lemma strptime_isoformat (y m d : Z) :
  valid_date y m d = true ->
  strptime (isoformat y m d) = Ok (mk_datetime y m d 0 0).
Proof.
  intros Hv. pose proof (valid_date_bounds _ _ _ Hv) as (Hy & Hm & Hd).
  pose proof (days_in_month_le y m).
  unfold strptime, re_Y_m_d, isoformat, strftime_Y_m_d. cbn [year month day].
  rewrite re_Y_pad4 by lia.
  rewrite bind_cons. change (@nil (Z * string) ≫= _) with (@nil (Z * Z * Z * string)). rewrite app_nil_r.
  rewrite head_bind_tail, re_tail_pad2 by lia.
  cbn. unfold new. by rewrite Hv.
Qed.

(** Whatever parses is a valid date at midnight. *)
Lemma strptime_Ok (s : string) (dt : datetime) :
  strptime s = Ok dt ->
  valid_date (year dt) (month dt) (day dt) = true /\
  hour dt = 0 /\ minute dt = 0.
Proof.
  unfold strptime.
  destruct (head (re_Y_m_d s)) as [[[[y m] d] [|? ?]]|]; try discriminate.
  unfold new. destruct (valid_date y m d) eqn:Hv; [|discriminate].
  intros [= <-]. auto.
Qed.

Lemma valid_date_intro (y m d : Z) :
  1 <= y <= 9999 -> 1 <= m <= 12 -> 1 <= d <= days_in_month y m ->
  valid_date y m d = true.
Proof.
  intros. unfold valid_date, MINYEAR, MAXYEAR.
  repeat (apply andb_true_intro; split); apply Z.leb_le; lia.
Qed.

Lemma new_jan_1 (y : Z) :
  1 <= y <= 9999 -> new y 1 1 = Ok (mk_datetime y 1 1 0 0).
Proof.
  intros Hy. unfold new. rewrite valid_date_intro; [done|lia..|].
  replace (days_in_month y 1) with 31 by reflexivity. lia.
Qed.

Lemma sub_days_midnight (y m d y' m' d' : Z) :
  sub_days (mk_datetime y m d 0 0) (mk_datetime y' m' d' 0 0) =
  ymd2ord y m d - ymd2ord y' m' d'.
Proof.
  unfold sub_days, to_seconds, toordinal. cbn [year month day hour minute].
  replace (_ - _) with ((ymd2ord y m d - ymd2ord y' m' d') * 86400) by lia.
  by rewrite Z.div_mul.
Qed.

(** [check_forecast_date] on a string that parses. *)
Lemma check_forecast_date_Ok (s : string) (dt : datetime) :
  strptime s = Ok dt ->
  S2S3Submit.check_forecast_date s =
  Ok ((toordinal dt - ymd2ord (year dt) 1 1) mod 5 =? 0).
Proof.
  intros Hs. pose proof (strptime_Ok _ _ Hs) as (Hv & Hh & Hmi).
  apply valid_date_bounds in Hv as (Hy & _ & _).
  unfold S2S3Submit.check_forecast_date. rewrite Hs. cbn.
  rewrite new_jan_1 by done. cbn.
  destruct dt as [y m d h mi]; cbn in *; subst.
  by rewrite sub_days_midnight.
Qed.

Lemma check_forecast_date_Raise (s : string) (e : exn) :
  strptime s = Raise e -> S2S3Submit.check_forecast_date s = Raise e.
Proof. intros Hs. unfold S2S3Submit.check_forecast_date. by rewrite Hs. Qed.

Lemma is_leap_dec31 (y : Z) :
  ymd2ord y 12 31 - ymd2ord y 1 1 = if is_leap y then 365 else 364.
Proof.
  unfold ymd2ord, days_before_month. cbn. destruct (is_leap y); lia.
Qed.

Lemma next_jan_1 (y : Z) : ymd2ord (y + 1) 1 1 = ymd2ord y 12 31 + 1.
Proof.
  unfold ymd2ord, days_before_month, days_before_year, is_leap. cbn.
  replace (y + 1 - 1) with y by lia.
  destruct (y mod 4 =? 0) eqn:H4, (y mod 100 =? 0) eqn:H100,
    (y mod 400 =? 0) eqn:H400; cbn;
    Z.div_mod_to_equations; lia.
Qed.

Lemma days_before_month_step (y m : Z) :
  2 <= m <= 12 ->
  days_before_month y m = days_before_month y (m - 1) + days_in_month y (m - 1).
Proof.
  intros Hm.
  assert (Hc : m = 2 \/ m = 3 \/ m = 4 \/ m = 5 \/ m = 6 \/ m = 7 \/ m = 8 \/
               m = 9 \/ m = 10 \/ m = 11 \/ m = 12) by lia.
  unfold days_before_month, days_in_month.
  destruct Hc as [-> | [-> | [-> | [-> | [-> | [-> | [-> | [-> | [-> | [-> | ->]]]]]]]]]];
    cbn; destruct (is_leap y); reflexivity.
Qed.

(** [minus_one_day] is the day before: on a valid date it gives a valid
    date, at the same time of day, whose ordinal is one less. *)
Lemma minus_one_day_ordinal (dt p : datetime) :
  valid_date (year dt) (month dt) (day dt) = true ->
  minus_one_day dt = Ok p ->
  toordinal p = toordinal dt - 1 /\
  valid_date (year p) (month p) (day p) = true /\
  hour p = hour dt /\ minute p = minute dt.
Proof.
  destruct dt as [y m d h mi]. cbn [year month day hour minute].
  intros Hv. apply valid_date_bounds in Hv as (Hy & Hm & Hd).
  unfold minus_one_day, toordinal, MINYEAR.
  destruct (1 <? d) eqn:H1.
  - intros [= <-]. cbn [year month day hour minute]. split; [unfold ymd2ord; lia|].
    split; [apply valid_date_intro; lia|done].
  - assert (d = 1) as -> by lia.
    destruct (1 <? m) eqn:H2.
    + intros [= <-]. cbn [year month day hour minute].
      pose proof (days_in_month_le y (m - 1)).
      split; [|split; [apply valid_date_intro; lia|done]].
      unfold ymd2ord. rewrite (days_before_month_step y m) by lia. lia.
    + assert (m = 1) as -> by lia.
      destruct (1 <? y) eqn:H3; [|discriminate].
      intros [= <-]. cbn [year month day hour minute].
      split; [|split; [|done]].
      * pose proof (next_jan_1 (y - 1)) as Hn.
        replace (y - 1 + 1) with y in Hn by lia. lia.
      * apply valid_date_intro; [lia..|].
        replace (days_in_month (y - 1) 12) with 31 by reflexivity. lia.
Qed.
End Calendar.

(** C2: a date is eligible exactly when its whole-day offset from January
    1st of its own year is a multiple of 5; January 1st is eligible in
    every year; and the count restarts each year: after a leap year,
    December 31st and the following January 1st are both eligible, one
    day apart. *)
Theorem C2_eligibility_from_jan_1 (y m d : Z) :
  PyDatetime.valid_date y m d = true ->
  S2S3Submit.check_forecast_date (PyDatetime.isoformat y m d) =
    Ok ((PyDatetime.ymd2ord y m d - PyDatetime.ymd2ord y 1 1) mod 5 =? 0) /\
  S2S3Submit.check_forecast_date (PyDatetime.isoformat y 1 1) = Ok true /\
  (PyDatetime.is_leap y = true -> y < PyDatetime.MAXYEAR ->
   S2S3Submit.check_forecast_date (PyDatetime.isoformat y 12 31) = Ok true /\
   S2S3Submit.check_forecast_date (PyDatetime.isoformat (y + 1) 1 1) = Ok true /\
   PyDatetime.ymd2ord (y + 1) 1 1 = PyDatetime.ymd2ord y 12 31 + 1).
Proof.
  intros Hv. pose proof (valid_date_bounds _ _ _ Hv) as (Hy & _ & _).
  assert (Hjan : forall y', 1 <= y' <= 9999 ->
    S2S3Submit.check_forecast_date (PyDatetime.isoformat y' 1 1) = Ok true).
  { intros y' Hy'.
    rewrite (check_forecast_date_Ok _ (PyDatetime.mk_datetime y' 1 1 0 0)).
    - unfold PyDatetime.toordinal. cbn. by rewrite Z.sub_diag.
    - apply strptime_isoformat, valid_date_intro; [lia..|].
      replace (PyDatetime.days_in_month y' 1) with 31 by reflexivity. lia. }
  split; [|split].
  - by rewrite (check_forecast_date_Ok _ _ (strptime_isoformat _ _ _ Hv)).
  - by apply Hjan.
  - intros Hleap Hmax. unfold PyDatetime.MAXYEAR in Hmax. split; [|split].
    + rewrite (check_forecast_date_Ok _ (PyDatetime.mk_datetime y 12 31 0 0)).
      * unfold PyDatetime.toordinal. cbn [PyDatetime.year PyDatetime.month PyDatetime.day].
        by rewrite is_leap_dec31, Hleap.
      * apply strptime_isoformat, valid_date_intro; [lia..|].
        replace (PyDatetime.days_in_month y 12) with 31 by reflexivity. lia.
    + apply Hjan. lia.
    + apply next_jan_1.
Qed.

Lemma C2_eligibility_from_jan_1_witness :
  S2S3Submit.check_forecast_date "2024-01-06" = Ok true /\
  S2S3Submit.check_forecast_date "2024-12-31" = Ok true /\
  S2S3Submit.check_forecast_date "2025-01-01" = Ok true.
Proof.
  destruct (C2_eligibility_from_jan_1 2024 1 6 eq_refl) as (H1 & _ & H3).
  destruct (H3 eq_refl ltac:(reflexivity)) as (H4 & H5 & _).
  exact (conj H1 (conj H4 H5)).
Defined.

(** * The readiness probe *)

Section Probe.
Import PyDatetime S2SCheck.

Lemma foldl_found (key : string) (ls : list string) (b : bool) :
  foldl (fun found line => if str_in key line then true else found) b ls =
  b || existsb (str_in key) ls.
Proof.
  revert b. induction ls as [|l ls IH]; intros b; cbn.
  - by rewrite orb_false_r.
  - rewrite IH. destruct (str_in key l), b; cbn; try done.
Qed.

Lemma OSTIA_string_midnight (y m d : Z) :
  OSTIA_string_of (mk_datetime y m d 0 0) = OSTIA_key y m d.
Proof. reflexivity. Qed.

(** What the three checks found, read off the file system. *)
Lemma run_checks_Ok (fs : filesystem) (y m d : Z) (c : checks) :
  run_checks fs y m d = Ok c ->
  exists cf af,
    new y m d = Ok (mk_datetime y m d 0 0) /\
    CMAP_file_of (mk_datetime y m d 0 0) = Ok cf /\
    anaeta_file_of (mk_datetime y m d 0 0) = Ok af /\
    CMAP_found c = isfile fs cf /\
    anaeta_found c = isfile fs af /\
    OSTIA_found c =
      isfile fs OSTIA_file &&
      existsb (str_in (OSTIA_key y m d)) (readlines fs OSTIA_file) /\
    rccode c = status_code (negb (CMAP_found c)) (negb (anaeta_found c))
                           (negb (OSTIA_found c)).
Proof.
  unfold run_checks. unfold new at 1.
  destruct (valid_date y m d) eqn:Hv; [|discriminate]. res_simpl.
  destruct (CMAP_file_of _) as [cf|] eqn:Hcf; [|discriminate]. res_simpl.
  destruct (anaeta_file_of _) as [af|] eqn:Haf; [|discriminate]. res_simpl.
  rewrite OSTIA_string_midnight, foldl_found. cbn [orb].
  intros Hc. exists cf, af. unfold new. rewrite Hv.
  destruct (isfile fs cf), (isfile fs af), (isfile fs OSTIA_file),
    (existsb _ _); cbn in Hc; injection Hc as <-; cbn; auto 10.
Qed.

Lemma main_Ok (fs : filesystem) (y m d : Z) (c : checks) :
  run_checks fs y m d = Ok c ->
  main fs y m d = Ok (status_code (negb (CMAP_found c)) (negb (anaeta_found c))
                                  (negb (OSTIA_found c))).
Proof.
  intros Hc. destruct (run_checks_Ok _ _ _ _ _ Hc) as (cf & af & _ & _ & _ & _ & _ & _ & Hrc).
  unfold main. rewrite Hc. res_simpl. rewrite Hrc.
  by destruct (CMAP_found c), (anaeta_found c), (OSTIA_found c).
Qed.

Lemma anaeta_file_of_Ok (y m d : Z) :
  exists af, anaeta_file_of (mk_datetime y m d 0 0) = Ok af.
Proof. eexists. reflexivity. Qed.

Lemma CMAP_file_of_Ok (y m d : Z) :
  valid_date y m d = true -> 1 < ymd2ord y m d ->
  exists cf, CMAP_file_of (mk_datetime y m d 0 0) = Ok cf.
Proof.
  intros Hv Hord.
  assert (Hp : exists p, minus_one_day (mk_datetime y m d 23 30) = Ok p).
  { unfold minus_one_day.
    destruct (1 <? d) eqn:Hd; [eauto|].
    destruct (1 <? m) eqn:Hm; [eauto|].
    destruct (MINYEAR <? y) eqn:Hy; [eauto|].
    exfalso. unfold valid_date, MINYEAR, MAXYEAR in *.
    assert (y = 1 /\ m = 1 /\ d = 1) as (-> & -> & ->) by lia.
    vm_compute in Hord. discriminate. }
  destruct Hp as [p Hp]. unfold CMAP_file_of.
  change (replace (mk_datetime y m d 0 0) 23 30) with (Ok (mk_datetime y m d 23 30)).
  res_simpl. rewrite Hp. res_simpl. eauto.
Qed.

(** The probe ends normally on every valid date but 0001-01-01, whose
    previous day does not exist. *)
Lemma run_checks_total (fs : filesystem) (y m d : Z) :
  valid_date y m d = true -> 1 < ymd2ord y m d ->
  exists c, run_checks fs y m d = Ok c.
Proof.
  intros Hv Hord. unfold run_checks, new. rewrite Hv. res_simpl.
  destruct (CMAP_file_of_Ok _ _ _ Hv Hord) as [cf ->]. res_simpl.
  destruct (anaeta_file_of_Ok y m d) as [af ->]. res_simpl.
  destruct (isfile fs cf), (isfile fs af); eauto.
Qed.
End Probe.

Lemma status_code_decode (a b o : bool) :
  S2SCheck.decode_status (S2SCheck.status_code a b o) = (a, b, o).
Proof. by destruct a, b, o. Qed.


(** Each of the eight combinations of missing sources does occur. *)
Lemma main_every_combination (a b o : bool) :
  exists fs : filesystem,
    S2SCheck.main fs 2024 3 1 = Ok (S2SCheck.status_code a b o).
Proof.
  pose (cf := S2SCheck.CMAP_path +:+ "/" +:+ S2SCheck.CMAP_prefix +:+
              "20240229_2330z" +:+ S2SCheck.CMAP_suffix).
  pose (af := S2SCheck.anaeta_path +:+ "/Y2024/M03/" +:+
              S2SCheck.anaeta_prefix +:+ "20240301_18z" +:+
              S2SCheck.anaeta_suffix).
  pose (log := File [S2SCheck.OSTIA_key 2024 3 1]).
  exists ((if a then ∅ else {[cf := File []]}) ∪
          (if b then ∅ else {[af := File []]}) ∪
          (if o then ∅ else {[S2SCheck.OSTIA_file := log]})).
  destruct a, b, o; vm_compute; reflexivity.
Qed.



Lemma four_digits_ok_all :
  forallb S2SCheck.four_digits_ok (seqZ 1000 9000) = true.
Proof. vm_compute. reflexivity. Qed.

(** From the year 1000 on the year in decimal has its four digits. *)
Lemma decimal_pad4 (y : Z) :
  1000 <= y <= 9999 -> PyDatetime.decimal y = PyDatetime.pad4 y.
Proof.
  intros Hy. pose proof four_digits_ok_all as H.
  rewrite forallb_forall in H. specialize (H y).
  rewrite <- list_elem_of_In, elem_of_seqZ in H.
  specialize (H ltac:(lia)). by apply String.eqb_eq in H.
Qed.

(** C10, as the code has it: the completion record counts as found
    exactly when the status log is a regular file and one of its lines
    contains the key of the probed date, which is
    "QUART-OSTIA-REYNOLDS-01, 00:00, ", the date as [%Y-%m-%d] writes it,
    and ", COMPLETE": the time field is the constant 00:00, and the date is
    YYYY-MM-DD from the year 1000 on, the year being written in decimal
    with no leading zeros.  A status log that is not there is reported as
    the record not found: 100 is part of the exit status and no exception
    ends the probe. *)
Theorem C10_completion_record (fs : filesystem) (y m d : Z) (c : S2SCheck.checks) :
  S2SCheck.run_checks fs y m d = Ok c ->
  (S2SCheck.OSTIA_found c = true <->
   exists lines line pre post,
     fs !! S2SCheck.OSTIA_file = Some (File lines) /\
     line ∈ lines /\
     line = pre +:+ S2SCheck.OSTIA_key y m d +:+ post) /\
  S2SCheck.OSTIA_key y m d =
    "QUART-OSTIA-REYNOLDS-01, 00:00, " +:+ PyDatetime.decimal y +:+ "-" +:+
    PyDatetime.pad2 m +:+ "-" +:+ PyDatetime.pad2 d +:+ ", COMPLETE" /\
  (1000 <= y ->
   S2SCheck.OSTIA_key y m d =
     "QUART-OSTIA-REYNOLDS-01, 00:00, " +:+ PyDatetime.pad4 y +:+ "-" +:+
     PyDatetime.pad2 m +:+ "-" +:+ PyDatetime.pad2 d +:+ ", COMPLETE") /\
  (fs !! S2SCheck.OSTIA_file = None -> S2SCheck.OSTIA_found c = false) /\
  (S2SCheck.OSTIA_found c = false ->
   S2SCheck.main fs y m d =
     Ok (S2SCheck.status_code (negb (S2SCheck.CMAP_found c))
                              (negb (S2SCheck.anaeta_found c)) true) /\
   S2SCheck.decode_status (S2SCheck.rccode c) =
     (negb (S2SCheck.CMAP_found c), negb (S2SCheck.anaeta_found c), true)).
Proof.
  intros Hc.
  destruct (run_checks_Ok _ _ _ _ _ Hc) as (cf & af & Hnew & _ & _ & _ & _ & Ho & Hrc).
  assert (Hkey : S2SCheck.OSTIA_key y m d =
    "QUART-OSTIA-REYNOLDS-01, 00:00, " +:+ PyDatetime.decimal y +:+ "-" +:+
    PyDatetime.pad2 m +:+ "-" +:+ PyDatetime.pad2 d +:+ ", COMPLETE").
  { unfold S2SCheck.OSTIA_key, PyDatetime.strftime_Y_m_d.
    cbn [PyDatetime.year PyDatetime.month PyDatetime.day].
    by rewrite !str_app_assoc. }
  split; [|split; [|split; [|split]]].
  - rewrite Ho, andb_true_iff, existsb_exists. unfold isfile, readlines.
    split.
    + intros [Hf (line & Hin & Hline)].
      destruct (fs !! S2SCheck.OSTIA_file) as [[lines|]|] eqn:Hfs; try discriminate.
      apply str_in_spec in Hline as (pre & post & ->).
      exists lines, (pre +:+ S2SCheck.OSTIA_key y m d +:+ post), pre, post.
      by rewrite list_elem_of_In.
    + intros (lines & line & pre & post & -> & Hin & Hline).
      split; [done|]. exists line. rewrite <- list_elem_of_In. split; [done|].
      apply str_in_spec. eauto.
  - exact Hkey.
  - intros Hy. rewrite Hkey, decimal_pad4; [done|].
    unfold PyDatetime.new in Hnew.
    destruct (PyDatetime.valid_date y m d) eqn:Hv; [|discriminate].
    apply valid_date_bounds in Hv. lia.
  - intros Hnone. rewrite Ho. unfold isfile. by rewrite Hnone.
  - intros Hf. rewrite (main_Ok _ _ _ _ _ Hc), Hrc, Hf. cbn [negb].
    split; [done|]. apply status_code_decode.
Qed.

Lemma C10_completion_record_witness :
  S2SCheck.main ∅ 2024 3 1 = Ok (S2SCheck.status_code true true true) /\
  S2SCheck.OSTIA_key 2024 3 1 =
    "QUART-OSTIA-REYNOLDS-01, 00:00, 2024-03-01, COMPLETE".
Proof.
  assert (Hc : S2SCheck.run_checks (∅ : filesystem) 2024 3 1 =
               Ok (S2SCheck.mk_checks false false false 111))
    by (vm_compute; reflexivity).
  pose proof (C10_completion_record ∅ 2024 3 1 _ Hc)
    as (_ & _ & Hkey & _ & Hmain).
  split.
  - exact (proj1 (Hmain eq_refl)).
  - rewrite (Hkey ltac:(lia)). reflexivity.
Defined.

(** C10, as the specification has it, fails below the year 1000: for the
    date 0999-01-06 the status log holds the line
    "QUART-OSTIA-REYNOLDS-01, 00:00, 0999-01-06, COMPLETE", yet the record
    is not found and the probe exits with 111: the key it looks for has the
    year as 999. *)
Lemma C10_counterexample :
  exists c,
    S2SCheck.run_checks
      (<[S2SCheck.OSTIA_file :=
           File ["QUART-OSTIA-REYNOLDS-01, 00:00, 0999-01-06, COMPLETE"]]> ∅)
      999 1 6 = Ok c /\
    str_in (S2SCheck.OSTIA_key_iso 999 1 6)
      "QUART-OSTIA-REYNOLDS-01, 00:00, 0999-01-06, COMPLETE" = true /\
    S2SCheck.OSTIA_found c = false /\
    S2SCheck.main
      (<[S2SCheck.OSTIA_file :=
           File ["QUART-OSTIA-REYNOLDS-01, 00:00, 0999-01-06, COMPLETE"]]> ∅)
      999 1 6 = Ok 111 /\
    S2SCheck.OSTIA_key 999 1 6 =
      "QUART-OSTIA-REYNOLDS-01, 00:00, 999-01-06, COMPLETE".
Proof.
  exists (S2SCheck.mk_checks false false false 111).
  repeat split; vm_compute; reflexivity.
Qed.

(** * The poll loop *)

Section Poll.
Import PyDatetime S2S3Submit.

Variable self : S2SForecastRunner.
Variable E : env.
Variable cmd : list string.

Lemma attempt_cost_bounds (b : behaviour) : 0 <= attempt_cost b <= probe_timeout.
Proof. destruct b; cbn [attempt_cost]; unfold probe_timeout; lia. Qed.

(** One turn of the loop, by what the launch does. *)
Lemma poll_step (fuel : nat) (start : Z) (w : world) :
  let b := E cmd (fs w) (launched w) in
  let w1 := mk_world (fs w) (clock w + attempt_cost b) (S (launched w))
                     (trace w ++ [EvRun cmd None (fs w)]) (stat_fails w) in
  poll (S fuel) self E cmd start w =
  if clock w - start <? max_wait_time self then
    if attempt_ready b then Some (Ok true, w1)
    else poll fuel self E cmd start
           (tick (check_interval self) (record (EvSleep (check_interval self)) w1))
  else Some (Ok false, w).
Proof.
  cbn zeta. cbn [poll].
  unfold mbind, M_mbind, M_bind, time_time, attempt, subprocess_run.
  destruct (clock w - start <? max_wait_time self); [|done].
  destruct (E cmd (fs w) (launched w)) as [rt rc out err|]; cbn [attempt_ready attempt_cost].
  - destruct (probe_timeout <? Z.of_N rt) eqn:Ht.
    + replace (Z.of_N rt <=? probe_timeout) with false by lia.
      replace (Z.min (Z.of_N rt) probe_timeout) with probe_timeout by lia.
      reflexivity.
    + replace (Z.of_N rt <=? probe_timeout) with true by lia.
      replace (Z.min (Z.of_N rt) probe_timeout) with (Z.of_N rt) by lia.
      cbn [returncode andb]. destruct (rc =? 0); reflexivity.
  - unfold tick, record. cbn [clock fs launched trace]. by rewrite Z.add_0_r.
Qed.

Lemma start_of_nonneg (interval : Z) (beh : nat -> behaviour) (n : nat) :
  0 <= interval -> 0 <= start_of interval beh n.
Proof.
  intros Hi. revert beh. induction n as [|n IH]; intros beh; cbn; [lia|].
  pose proof (attempt_cost_bounds (beh O)). specialize (IH (fun k => beh (S k))). lia.
Qed.

Lemma start_of_succ (interval : Z) (beh : nat -> behaviour) (n : nat) :
  start_of interval beh (S n) =
  start_of interval beh n + attempt_cost (beh n) + interval.
Proof.
  revert beh. induction n as [|n IH]; intros beh.
  - cbn. lia.
  - change (start_of interval beh (S (S n))) with
      (attempt_cost (beh O) + interval + start_of interval (fun k => beh (S k)) (S n)).
    rewrite IH. cbn [start_of]. lia.
Qed.

Lemma start_of_mono (interval : Z) (beh : nat -> behaviour) (n j : nat) :
  0 <= interval -> (n <= j)%nat ->
  start_of interval beh n <= start_of interval beh j.
Proof.
  intros Hi Hle. induction Hle as [|j Hle IH]; [lia|].
  rewrite start_of_succ. pose proof (attempt_cost_bounds (beh j)). lia.
Qed.

Hypothesis interval_pos : 0 < check_interval self.

(** The loop, run with enough fuel from any moment of the wait: it
    returns, after [n] launches that were not ready. *)
Lemma poll_spec (fuel : nat) (start : Z) :
  forall (w : world) (beh : nat -> behaviour),
  (forall k, E cmd (fs w) (launched w + k)%nat = beh k) ->
  (1 <= fuel)%nat ->
  max_wait_time self - (clock w - start) <= (Z.of_nat fuel - 1) * check_interval self ->
  exists n b w',
    poll fuel self E cmd start w = Some (Ok b, w') /\
    fs w' = fs w /\
    trace w' = trace w ++ poll_events cmd (fs w) (check_interval self) n b /\
    (forall k, (k < n)%nat ->
       attempt_ready (beh k) = false /\
       clock w - start + start_of (check_interval self) beh k < max_wait_time self) /\
    if b then
      attempt_ready (beh n) = true /\
      clock w - start + start_of (check_interval self) beh n < max_wait_time self /\
      clock w' = clock w + start_of (check_interval self) beh n + attempt_cost (beh n)
    else
      max_wait_time self <= clock w - start + start_of (check_interval self) beh n /\
      clock w' = clock w + start_of (check_interval self) beh n.
Proof.
  induction fuel as [|fuel IH]; intros w beh Hbeh Hfuel Hbudget; [lia|].
  rewrite poll_step.
  pose proof (Hbeh O) as Hb0. rewrite Nat.add_0_r in Hb0. rewrite Hb0.
  destruct (clock w - start <? max_wait_time self) eqn:Hlt.
  - destruct (attempt_ready (beh O)) eqn:Hready.
    + exists O, true. eexists. split; [done|]. cbn [fs trace clock poll_events start_of].
      split; [done|]. split; [done|]. split; [intros k Hk; lia|].
      split; [done|]. split; lia.
    + pose proof (attempt_cost_bounds (beh O)) as Hcost.
      set (w2 := tick _ _).
      destruct (IH w2 (fun k => beh (S k))) as (n & b & w' & Hp & Hfs & Htr & Hbefore & Hend).
      * intros k. cbn. rewrite <- Hbeh. f_equal. lia.
      * nia.
      * cbn [w2 tick record clock]. nia.
      * exists (S n), b, w'. split; [done|]. split; [done|]. split; [|split].
        -- rewrite Htr. cbn [w2 tick record trace fs poll_events].
           by rewrite <- !app_assoc.
        -- intros [|k] Hk.
           ++ cbn [start_of]. split; [done|lia].
           ++ destruct (Hbefore k ltac:(lia)) as [Hr Hs]. split; [done|].
              cbn [w2 tick record clock] in Hs. cbn [start_of]. lia.
        -- cbn [w2 tick record clock] in Hend. cbn [start_of].
           destruct b.
           ++ destruct Hend as (? & ? & ?). repeat split; [done|lia|lia].
           ++ destruct Hend as (? & ?). split; lia.
  - exists O, false, w. split; [done|]. cbn [poll_events start_of].
    rewrite app_nil_r. split; [done|]. split; [done|].
    split; [intros k Hk; lia|]. split; lia.
Qed.

Lemma poll_fuel_enough :
  max_wait_time self <= (Z.of_nat (poll_fuel self) - 1) * check_interval self.
Proof.
  unfold poll_fuel.
  destruct (Z.le_gt_cases 0 (max_wait_time self)) as [Hm|Hm].
  - rewrite Nat2Z.inj_add, Z2Nat.id by (apply Z.div_pos; lia).
    pose proof (Z.mod_pos_bound (max_wait_time self) (check_interval self) interval_pos).
    pose proof (Z.div_mod (max_wait_time self) (check_interval self)). nia.
  - nia.
Qed.
End Poll.


Section Runner.
Import PyDatetime S2S3Submit.

Variable self : S2SForecastRunner.
Variable E : env.
Hypothesis interval_pos : 0 < check_interval self.

(** [wait_for_files] on a date that parses: it returns, and never by an
    exception. *)
Lemma wait_for_files_spec (date : string) (dt : datetime) (w : world) :
  strptime date = Ok dt ->
  let cmd := check_cmd_of self dt in
  let beh := fun k => E cmd (fs w) (launched w + k)%nat in
  let start := start_of (check_interval self) beh in
  exists n b w',
    wait_for_files self E date w = Some (Ok b, w') /\
    fs w' = fs w /\
    trace w' = trace w ++ poll_events cmd (fs w) (check_interval self) n b /\
    (forall k, (k < n)%nat ->
       attempt_ready (beh k) = false /\ start k < max_wait_time self) /\
    if b then
      attempt_ready (beh n) = true /\ start n < max_wait_time self /\
      clock w' = clock w + start n + attempt_cost (beh n)
    else
      max_wait_time self <= start n /\ clock w' = clock w + start n.
Proof.
  intros Hs cmd beh start.
  destruct (poll_spec self E cmd interval_pos (poll_fuel self) (clock w) w beh)
    as (n & b & w' & Hp & Hfs & Htr & Hbefore & Hend).
  - done.
  - unfold poll_fuel. lia.
  - pose proof (poll_fuel_enough self interval_pos). lia.
  - exists n, b, w'. split.
    + unfold wait_for_files. m_unfold. unfold lift, time_time. by rewrite Hs.
    + split; [done|]. split; [done|]. split.
      * intros k Hk. destruct (Hbefore k Hk). split; [done|]. unfold start. lia.
      * unfold start. destruct b; [destruct Hend as (?&?&?)|destruct Hend];
          repeat split; try done; lia.
Qed.

Lemma wait_for_files_Raise (date : string) (e : exn) (w : world) :
  strptime date = Raise e -> wait_for_files self E date w = Some (Raise e, w).
Proof. intros Hs. unfold wait_for_files. m_unfold. unfold lift. by rewrite Hs. Qed.

Lemma exists_world (p : string) (w : world) :
  exists r, exists_ p w = Some (r, w).
Proof. unfold exists_. destruct (decide _); eauto. Qed.

Lemma collect_missing_world (required missing : list string) (w : world) :
  exists r, collect_missing required missing w = Some (r, w).
Proof.
  revert missing. induction required as [|p ps IH]; intros missing.
  - by eexists.
  - cbn [collect_missing]. m_unfold.
    destruct (exists_world p w) as [[found|e] ->]; [|by eexists].
    destruct found; apply IH.
Qed.

(** Validation only looks: it returns or raises, and the world is as it
    was. *)
Lemma validate_experiment_world (w : world) :
  exists r, validate_experiment self w = Some (r, w).
Proof.
  unfold validate_experiment. m_unfold.
  destruct (exists_world (experiment_dir self) w) as [[found|e] ->];
    [|by eexists].
  destruct found; cbn [negb]; [|by eexists].
  destruct (collect_missing_world
              [forecast_dates_file self; check_script self; job_script self]
              [] w) as [[[|? ?]|e] ->]; by eexists.
Qed.

(** [submit_job] when the marker is a directory: the clean-up raises
    and the scheduler is not called. *)
Lemma submit_job_blocked (w : world) :
  fs w !! marker_file self = Some Dir ->
  submit_job self E w =
  Some (Ok (false, None), record (EvUnlink (marker_file self)) w).
Proof.
  intros Hd. unfold submit_job. m_unfold. unfold attempt, unlink_missing_ok.
  by rewrite Hd.
Qed.

(** [submit_job] otherwise: the marker is removed, then the scheduler
    is called once. *)
Lemma submit_job_proceeds (w : world) :
  fs w !! marker_file self <> Some Dir ->
  let fs1 := delete (marker_file self) (fs w) in
  let b := E (sbatch_cmd self) fs1 (launched w) in
  submit_job self E w =
  Some (Ok (submit_outcome b),
        mk_world fs1 (clock w + behaviour_time b) (S (launched w))
          ((trace w ++ [EvUnlink (marker_file self)]) ++
           [EvRun (sbatch_cmd self) (Some (experiment_dir self)) fs1])
          (stat_fails w)).
Proof.
  intros Hd fs1 b. unfold submit_job. m_unfold.
  unfold attempt, unlink_missing_ok, subprocess_run.
  assert (Hfs : match fs w !! marker_file self with
                | Some (File _) => delete (marker_file self) (fs w)
                | _ => fs w end = fs1).
  { destruct (fs w !! marker_file self) as [[?|]|] eqn:Hm; try done.
    unfold fs1. by rewrite delete_id. }
  destruct (fs w !! marker_file self) as [[ls|]|] eqn:Hm; [|done|];
    cbn [fs clock launched trace]; rewrite Hfs; fold (sbatch_cmd self); fold b;
    (destruct b as [rt rc out err|]; cbn [submit_outcome behaviour_time];
     [ cbn [returncode stdout]; destruct (rc =? 0); reflexivity
     | unfold tick; cbn; by rewrite ?Z.add_0_r ]).
Qed.
End Runner.


(** * Traces *)

Section Traces.
Import S2S3Submit.

Lemma added_app (w w' : world) (evs : list event) :
  trace w' = trace w ++ evs -> added w w' = evs.
Proof. intros H. unfold added. rewrite H. apply drop_app_length. Qed.

Lemma added_same (w : world) : added w w = [].
Proof. unfold added. by rewrite drop_all. Qed.

Lemma notifications_app (l k : list event) :
  notifications (l ++ k) = notifications l ++ notifications k.
Proof. apply omap_app. Qed.

Lemma launches_app (l k : list event) :
  launches (l ++ k) = launches l ++ launches k.
Proof. apply omap_app. Qed.

Lemma notifications_poll_events cmd seen interval n ready :
  notifications (poll_events cmd seen interval n ready) = [].
Proof. induction n as [|n IH]; [by destruct ready | done]. Qed.

Lemma trace_notify_all (ns : list NotificationEvent) (w : world) :
  trace (notify_all ns w) = trace w ++ map EvNotify ns.
Proof.
  revert w. induction ns as [|n ns IH]; intros w; cbn.
  - by rewrite app_nil_r.
  - unfold notify_all in IH. rewrite IH. cbn. by rewrite <- app_assoc.
Qed.

Lemma notifications_map_notify (ns : list NotificationEvent) :
  notifications (map EvNotify ns) = ns.
Proof. induction ns as [|n ns IH]; [done|]. cbn. by f_equal. Qed.

Lemma launches_map_notify (ns : list NotificationEvent) :
  launches (map EvNotify ns) = [].
Proof. by induction ns. Qed.
End Traces.

(** * The run *)

Section Run.
Import PyDatetime S2S3Submit.

Variable self : S2SForecastRunner.
Variable E : env.
Hypothesis interval_pos : 0 < check_interval self.

Lemma check_forecast_date_inv (date : string) (b : bool) :
  check_forecast_date date = Ok b -> exists dt, strptime date = Ok dt.
Proof.
  unfold check_forecast_date. destruct (strptime date) as [dt|e]; [eauto|done].
Qed.

Lemma check_forecast_date_Raise_inv (date : string) (e : exn) :
  check_forecast_date date = Raise e -> strptime date = Raise e.
Proof.
  destruct (strptime date) as [dt|e'] eqn:Hs.
  - by rewrite (check_forecast_date_Ok _ _ Hs).
  - rewrite (check_forecast_date_Raise _ _ Hs). by intros [= ->].
Qed.

Lemma marker_cases (w : world) :
  fs w !! marker_file self = Some Dir \/ fs w !! marker_file self <> Some Dir.
Proof. destruct (fs w !! marker_file self) as [[?|]|]; auto. Qed.

(** [submit_job] always returns a pair, and adds no notification. *)
Lemma submit_job_total (w : world) :
  exists v evs w',
    submit_job self E w = Some (Ok v, w') /\
    trace w' = trace w ++ evs /\ notifications evs = [].
Proof.
  destruct (marker_cases w) as [Hd|Hd].
  - rewrite (submit_job_blocked _ _ _ Hd). eexists _, [_], _. by repeat split.
  - rewrite (submit_job_proceeds _ _ _ Hd). eexists _, [_; _], _.
    split; [done|]. cbn [trace]. by rewrite <- app_assoc.
Qed.

(** Every run goes one of the six ways, ends with the exit of that way
    and sends the notifications of that way, after everything else. *)
Lemma run_cases (date : string) (w : world) :
  exists p w1 evs,
    takes self E date w p w1 /\
    run self E date w =
      Some (path_exit p, notify_all (path_notifications self p) w1) /\
    trace w1 = trace w ++ evs /\ notifications evs = [].
Proof.
  destruct (validate_experiment_world self w) as [[v|e] Hv].
  2: { exists (ValidationError e), w, []. rewrite app_nil_r.
       split; [by constructor|]. unfold run. m_unfold. rewrite Hv.
       by repeat split. }
  unfold run. m_unfold. rewrite Hv. destruct v; cbn [negb].
  2: { exists ValidationFailure, w, []. rewrite app_nil_r.
       split; [by constructor|]. by repeat split. }
  unfold lift at 1. destruct (check_forecast_date date) as [[|]|e] eqn:Hc.
  - destruct (check_forecast_date_inv _ _ Hc) as [dt Hs].
    destruct (wait_for_files_spec self E interval_pos date dt w Hs)
      as (n & b & w1 & Hw & _ & Htr & _).
    cbn [negb]. cbn beta. rewrite Hw. destruct b; cbn [negb]; cbn beta.
    + destruct (submit_job_total w1) as ([[|] jid] & evs & w2 & Hsub & Htr2 & Hn).
      * exists (Submitted jid), w2. eexists.
        split; [by econstructor|]. rewrite Hsub. cbn [negb]. split; [done|].
        rewrite Htr2, Htr, <- app_assoc. split; [done|].
        by rewrite notifications_app, notifications_poll_events, Hn.
      * exists SubmissionFailure, w2. eexists.
        split; [by econstructor|]. rewrite Hsub. cbn [negb]. split; [done|].
        rewrite Htr2, Htr, <- app_assoc. split; [done|].
        by rewrite notifications_app, notifications_poll_events, Hn.
    + exists ReadinessTimeout, w1. eexists.
      split; [by econstructor|]. split; [done|]. split; [done|].
      apply notifications_poll_events.
  - exists EligibilitySkip, w, []. rewrite app_nil_r.
    split; [by constructor|]. by repeat split.
  - exists (MalformedDate e), w, []. rewrite app_nil_r.
    split; [constructor; [done|by apply check_forecast_date_Raise_inv]|].
    by repeat split.
Qed.

(** The way a run goes is determined by the world it starts in. *)
Lemma takes_det (date : string) (w : world) (p p' : path) (w1 w1' : world) :
  takes self E date w p w1 -> takes self E date w p' w1' -> p = p' /\ w1 = w1'.
Proof.
  intros H H'.
  destruct H; destruct H';
    repeat match goal with
    | H : strptime _ = Raise _ |- _ => apply check_forecast_date_Raise in H
    end;
    split; congruence.
Qed.

(** The ways that end with exit 0, by what the stages return. *)
Lemma takes_zero_iff (date : string) (w : world) (p : path) (w1 : world) :
  takes self E date w p w1 ->
  (p = EligibilitySkip \/ (exists job_id, p = Submitted job_id)) <->
  validate_experiment self w = Some (Ok true, w) /\
  (check_forecast_date date = Ok false \/
   check_forecast_date date = Ok true /\
   exists w2 job_id w3,
     wait_for_files self E date w = Some (Ok true, w2) /\
     submit_job self E w2 = Some (Ok (true, job_id), w3)).
Proof.
  intros Ht. split.
  - intros [-> | [j ->]]; inversion Ht; subst; eauto 10.
  - intros [Hv [Hc | (Hc & w2 & j & w3 & Hw & Hsub)]].
    + left. eapply takes_det; [exact Ht|]. by constructor.
    + right. exists j. eapply takes_det; [exact Ht|]. by econstructor.
Qed.

(** The ways that end with exit 1, by what the stages return. *)
Lemma takes_one_iff (date : string) (w : world) (p : path) (w1 : world) :
  takes self E date w p w1 ->
  (p = ValidationFailure \/ p = ReadinessTimeout \/ p = SubmissionFailure) <->
  validate_experiment self w = Some (Ok false, w) \/
  validate_experiment self w = Some (Ok true, w) /\
  check_forecast_date date = Ok true /\
  ((exists w2, wait_for_files self E date w = Some (Ok false, w2)) \/
   exists w2 job_id w3,
     wait_for_files self E date w = Some (Ok true, w2) /\
     submit_job self E w2 = Some (Ok (false, job_id), w3)).
Proof.
  intros Ht. split.
  - intros [-> | [-> | ->]]; inversion Ht; subst; eauto 10.
  - intros [Hv | (Hv & Hc & [[w2 Hw] | (w2 & j & w3 & Hw & Hsub)])].
    + left. eapply takes_det; [exact Ht|]. by constructor.
    + right; left. eapply takes_det; [exact Ht|]. by econstructor.
    + right; right. eapply takes_det; [exact Ht|]. by econstructor.
Qed.
End Run.

Lemma init_interval_pos (name : string) :
  0 < S2S3Submit.check_interval (S2S3Submit.init name).
Proof. done. Qed.

(** * The claims about the poll loop *)

(** C4: on a date that parses, [wait_for_files] returns and never raises.
    It launches the probe, and after each launch that is not ready (a
    nonzero status, a launch failure, or the probe's own timeout) it sleeps
    [check_interval] and tries again, the time being counted from the one
    start of the wait.  It returns true at the first launch that ends with
    status 0 and started inside [max_wait_time], whatever came before, and
    false once [max_wait_time] has gone by at the top of the loop. *)
Theorem C4_poll_until_ready (name : string) (E : S2S3Submit.env)
    (date : string) (dt : PyDatetime.datetime) (w : S2S3Submit.world) :
  PyDatetime.strptime date = Ok dt ->
  let self := S2S3Submit.init name in
  let cmd := S2S3Submit.check_cmd_of self dt in
  let beh := fun k => E cmd (S2S3Submit.fs w) (S2S3Submit.launched w + k)%nat in
  let start := S2S3Submit.start_of (S2S3Submit.check_interval self) beh in
  exists n b w',
    S2S3Submit.wait_for_files self E date w = Some (Ok b, w') /\
    S2S3Submit.trace w' =
      S2S3Submit.trace w ++
      S2S3Submit.poll_events cmd (S2S3Submit.fs w)
        (S2S3Submit.check_interval self) n b /\
    (forall k, (k < n)%nat ->
       S2S3Submit.attempt_ready (beh k) = false /\
       start k < S2S3Submit.max_wait_time self) /\
    (if b then
       S2S3Submit.attempt_ready (beh n) = true /\
       start n < S2S3Submit.max_wait_time self /\
       S2S3Submit.clock w' =
         S2S3Submit.clock w + start n + S2S3Submit.attempt_cost (beh n)
     else
       S2S3Submit.max_wait_time self <= start n /\
       S2S3Submit.clock w' = S2S3Submit.clock w + start n) /\
    (b = true <->
     exists j,
       S2S3Submit.attempt_ready (beh j) = true /\
       (forall k, (k < j)%nat -> S2S3Submit.attempt_ready (beh k) = false) /\
       start j < S2S3Submit.max_wait_time self).
Proof.
  intros Hs. cbv zeta.
  pose proof (wait_for_files_spec (S2S3Submit.init name) E
                (init_interval_pos name) date dt w Hs) as Hspec.
  cbv zeta in Hspec.
  destruct Hspec as (n & b & w' & Hw & _ & Htr & Hbefore & Hend).
  exists n, b, w'. split; [done|]. split; [done|]. split; [done|].
  split; [done|]. split.
  - intros ->. destruct Hend as (Hr & Hlt & _). exists n.
    split; [done|]. split; [|done]. intros k Hk. by apply Hbefore.
  - intros (j & Hr & Hfirst & Hlt). destruct b; [done|]. exfalso.
    destruct Hend as [Hge _].
    destruct (Nat.lt_ge_cases j n) as [Hjn|Hjn].
    + destruct (Hbefore j Hjn) as [Hnr _]. congruence.
    + pose proof (start_of_mono
        (S2S3Submit.check_interval (S2S3Submit.init name))
        (fun k => E (S2S3Submit.check_cmd_of (S2S3Submit.init name) dt)
                    (S2S3Submit.fs w) (S2S3Submit.launched w + k)%nat)
        n j ltac:(done) Hjn) as Hmono.
      cbv beta in Hmono. lia.
Qed.

Lemma C4_poll_until_ready_witness :
  exists w',
    S2S3Submit.wait_for_files (S2S3Submit.init "exp1") S2S3Submit.env_accept
      "2024-01-01" S2S3Submit.sample_world = Some (Ok true, w').
Proof.
  destruct (C4_poll_until_ready "exp1" S2S3Submit.env_accept "2024-01-01"
              (PyDatetime.mk_datetime 2024 1 1 0 0) S2S3Submit.sample_world
              eq_refl) as (n & b & w' & Hw & _ & _ & _ & Hiff).
  exists w'. rewrite Hw.
  assert (Hb : b = true).
  { apply Hiff. exists O. split; [reflexivity|]. split; [|reflexivity].
    intros k Hk. inversion Hk. }
  rewrite Hb. reflexivity.
Defined.

(** C5, as the code has it: [wait_for_files] always ends, and within
    [max_wait_time + probe_timeout + check_interval] seconds of its start:
    the deadline is looked at only at the top of the loop, so a launch that
    starts just inside it still costs the probe's timeout and a sleep. *)
Theorem C5_poll_time_bound (name : string) (E : S2S3Submit.env)
    (date : string) (w : S2S3Submit.world) :
  let self := S2S3Submit.init name in
  exists r w',
    S2S3Submit.wait_for_files self E date w = Some (r, w') /\
    0 <= S2S3Submit.clock w' - S2S3Submit.clock w <
      S2S3Submit.max_wait_time self + S2S3Submit.probe_timeout +
      S2S3Submit.check_interval self.
Proof.
  intros self.
  change (S2S3Submit.max_wait_time self) with 7200.
  change (S2S3Submit.check_interval self) with 900.
  change S2S3Submit.probe_timeout with 300.
  destruct (PyDatetime.strptime date) as [dt|e] eqn:Hs.
  - pose proof (wait_for_files_spec self E (init_interval_pos name) date dt w Hs)
      as Hspec.
    cbv zeta in Hspec.
    change (S2S3Submit.max_wait_time self) with 7200 in Hspec.
    change (S2S3Submit.check_interval self) with 900 in Hspec.
    destruct Hspec as (n & b & w' & Hw & _ & _ & Hbefore & Hend).
    exists (Ok b), w'. split; [done|].
    set (beh := fun k : nat => E _ _ _) in *.
    pose proof (start_of_nonneg 900 beh n ltac:(done)) as H0.
    pose proof (attempt_cost_bounds (beh n)) as Hc.
    change S2S3Submit.probe_timeout with 300 in Hc.
    destruct b.
    + destruct Hend as (_ & Hlt & Hclock). unfold beh in *. lia.
    + destruct Hend as (_ & Hclock). destruct n as [|n].
      * cbn [S2S3Submit.start_of] in Hclock. lia.
      * destruct (Hbefore n ltac:(lia)) as [_ Hlt].
        rewrite start_of_succ in Hclock.
        pose proof (attempt_cost_bounds (beh n)) as Hc'.
        change S2S3Submit.probe_timeout with 300 in Hc'.
        pose proof (start_of_nonneg 900 beh n ltac:(done)) as H0'.
        unfold beh in *. lia.
  - exists (Raise e), w. split; [by apply wait_for_files_Raise|]. lia.
Qed.

(** C5, as the specification has it, fails: seven launches of 128 s that
    report not ready bring the clock to 7196 s, inside the deadline; the
    eighth launch hangs until the probe's timeout, and the wait ends after
    8396 s, more than [max_wait_time + check_interval] = 8100 s. *)
Lemma C5_counterexample :
  exists w',
    S2S3Submit.wait_for_files (S2S3Submit.init "exp1") S2S3Submit.env_slow
      "2024-01-01" S2S3Submit.sample_world = Some (Ok false, w') /\
    S2S3Submit.clock w' - S2S3Submit.clock S2S3Submit.sample_world = 8396 /\
    ~ (S2S3Submit.clock w' - S2S3Submit.clock S2S3Submit.sample_world <=
       S2S3Submit.max_wait_time (S2S3Submit.init "exp1") +
       S2S3Submit.check_interval (S2S3Submit.init "exp1")).
Proof.
  eexists. split; [vm_compute; reflexivity|]. split; [reflexivity|].
  intros H. vm_compute in H. by apply H.
Qed.

(** * The claims about submission *)



(** When the marker is a directory the clean-up raises, [submit_job]
    reports failure and the scheduler is never called. *)
Lemma submit_job_marker_dir (self : S2S3Submit.S2SForecastRunner)
    (E : S2S3Submit.env) (w : S2S3Submit.world) :
  S2S3Submit.fs w !! S2S3Submit.marker_file self = Some Dir ->
  exists w',
    S2S3Submit.submit_job self E w = Some (Ok (false, None), w') /\
    S2S3Submit.launches (S2S3Submit.added w w') = [].
Proof.
  intros Hd. rewrite (submit_job_blocked self E w Hd). eexists. split; [done|].
  by rewrite (added_app w _ [S2S3Submit.EvUnlink (S2S3Submit.marker_file self)]).
Qed.




(** * The claims about the run *)

(** C8: a run sends at most one notification, and sends it last: one
    failure notification when validation fails, when the wait times out
    and when the submission fails; one success notification, with the job
    identifier, when the job is submitted; none when the date is not
    eligible (and none on the two ways that end with an exception,
    validation that raises and a date that does not parse). *)
Theorem C8_one_notification (name : string) (E : S2S3Submit.env)
    (date : string) (w : S2S3Submit.world) :
  let self := S2S3Submit.init name in
  exists p w1 w',
    S2S3Submit.takes self E date w p w1 /\
    S2S3Submit.run self E date w = Some (S2S3Submit.path_exit p, w') /\
    S2S3Submit.trace w' =
      S2S3Submit.trace w1 ++
      map S2S3Submit.EvNotify (S2S3Submit.path_notifications self p) /\
    S2S3Submit.notifications (S2S3Submit.added w w') =
      S2S3Submit.path_notifications self p /\
    (length (S2S3Submit.notifications (S2S3Submit.added w w')) <= 1)%nat /\
    match p with
    | S2S3Submit.ValidationFailure
    | S2S3Submit.ReadinessTimeout
    | S2S3Submit.SubmissionFailure =>
        exists message,
          S2S3Submit.notifications (S2S3Submit.added w w') =
            [S2S3Submit.build_notification self false message None] /\
          S2S3Submit.path_exit p = Ok 1
    | S2S3Submit.Submitted job_id =>
        S2S3Submit.notifications (S2S3Submit.added w w') =
          [S2S3Submit.build_notification self true "" job_id] /\
        S2S3Submit.path_exit p = Ok 0
    | S2S3Submit.EligibilitySkip =>
        S2S3Submit.notifications (S2S3Submit.added w w') = [] /\
        S2S3Submit.path_exit p = Ok 0
    | S2S3Submit.ValidationError e
    | S2S3Submit.MalformedDate e =>
        S2S3Submit.notifications (S2S3Submit.added w w') = [] /\
        S2S3Submit.path_exit p = Raise e
    end.
Proof.
  intros self.
  destruct (run_cases self E (init_interval_pos name) date w)
    as (p & w1 & evs & Ht & Hr & Htr & Hn).
  exists p, w1. eexists. split; [done|]. split; [done|].
  assert (Hns : S2S3Submit.notifications
                  (S2S3Submit.added w
                     (S2S3Submit.notify_all
                        (S2S3Submit.path_notifications self p) w1)) =
                S2S3Submit.path_notifications self p).
  { rewrite (added_app w _
               (evs ++ map S2S3Submit.EvNotify
                         (S2S3Submit.path_notifications self p))).
    - by rewrite notifications_app, Hn, notifications_map_notify.
    - by rewrite trace_notify_all, Htr, <- app_assoc. }
  split; [apply trace_notify_all|]. split; [done|]. rewrite Hns.
  destruct p; cbn; eauto.
Qed.

(** C1: with a date that parses, a run in which validation returns, passed
    or failed, ends with exit 0 or exit 1, as the state machine has it (a
    run in which validation raises goes the way [ValidationError] and has
    no exit of its own).  The exit is 0 when validation passes and either
    the date is not eligible, in which case nothing is notified, no command
    is launched and the world is as before, or the wait reports ready and
    the submission succeeds.  The exit is 1 when validation fails, when the
    wait times out and when the submission fails. *)
Theorem C1_exit_status (name : string) (E : S2S3Submit.env) (date : string)
    (dt : PyDatetime.datetime) (w : S2S3Submit.world) (valid : bool) :
  PyDatetime.strptime date = Ok dt ->
  S2S3Submit.validate_experiment (S2S3Submit.init name) w =
    Some (Ok valid, w) ->
  let self := S2S3Submit.init name in
  exists p w1 code w',
    S2S3Submit.takes self E date w p w1 /\
    S2S3Submit.run self E date w = Some (Ok code, w') /\
    (code = 0 \/ code = 1) /\
    (code = 0 <->
     p = S2S3Submit.EligibilitySkip \/ exists job_id, p = S2S3Submit.Submitted job_id) /\
    (code = 1 <->
     p = S2S3Submit.ValidationFailure \/ p = S2S3Submit.ReadinessTimeout \/
     p = S2S3Submit.SubmissionFailure) /\
    (code = 0 <->
     S2S3Submit.validate_experiment self w = Some (Ok true, w) /\
     (S2S3Submit.check_forecast_date date = Ok false \/
      S2S3Submit.check_forecast_date date = Ok true /\
      exists w2 job_id w3,
        S2S3Submit.wait_for_files self E date w = Some (Ok true, w2) /\
        S2S3Submit.submit_job self E w2 = Some (Ok (true, job_id), w3))) /\
    (code = 1 <->
     S2S3Submit.validate_experiment self w = Some (Ok false, w) \/
     S2S3Submit.validate_experiment self w = Some (Ok true, w) /\
     S2S3Submit.check_forecast_date date = Ok true /\
     ((exists w2, S2S3Submit.wait_for_files self E date w = Some (Ok false, w2)) \/
      exists w2 job_id w3,
        S2S3Submit.wait_for_files self E date w = Some (Ok true, w2) /\
        S2S3Submit.submit_job self E w2 = Some (Ok (false, job_id), w3))) /\
    (p = S2S3Submit.EligibilitySkip ->
     w' = w /\
     S2S3Submit.notifications (S2S3Submit.added w w') = [] /\
     S2S3Submit.launches (S2S3Submit.added w w') = []).
Proof.
  intros Hs Hvalid self.
  destruct (run_cases self E (init_interval_pos name) date w)
    as (p & w1 & evs & Ht & Hr & Htr & Hn).
  assert (Hcode : exists code,
    S2S3Submit.path_exit p = Ok code /\ (code = 0 \/ code = 1) /\
    (code = 0 <->
     p = S2S3Submit.EligibilitySkip \/
     exists job_id, p = S2S3Submit.Submitted job_id) /\
    (code = 1 <->
     p = S2S3Submit.ValidationFailure \/ p = S2S3Submit.ReadinessTimeout \/
     p = S2S3Submit.SubmissionFailure)).
  { destruct p as [e'| |e| | | |job_id];
      [ |exists 1| |exists 0|exists 1|exists 1|exists 0];
      try (cbn [S2S3Submit.path_exit];
           repeat split; auto; try discriminate;
           try (intros [? | [? ?]]; discriminate);
           try (intros [? | [? | ?]]; discriminate);
           intros _; eauto).
    all: inversion Ht; subst; unfold self in *; congruence. }
  destruct Hcode as (code & Hpe & H01 & Hzero & Hone).
  rewrite Hpe in Hr.
  exists p, w1, code. eexists.
  split; [exact Ht|]. split; [exact Hr|]. split; [exact H01|].
  split; [exact Hzero|]. split; [exact Hone|].
  split; [rewrite Hzero; apply (takes_zero_iff self E date w p w1 Ht)|].
  split; [rewrite Hone; apply (takes_one_iff self E date w p w1 Ht)|].
  intros ->. inversion Ht; subst.
  cbn [S2S3Submit.path_notifications S2S3Submit.notify_all foldl].
  by rewrite added_same.
Qed.

Lemma C1_exit_status_witness :
  exists w',
    S2S3Submit.run (S2S3Submit.init "exp1") S2S3Submit.env_accept "2024-01-02"
      S2S3Submit.sample_world = Some (Ok 0, w').
Proof.
  destruct (C1_exit_status "exp1" S2S3Submit.env_accept "2024-01-02"
              (PyDatetime.mk_datetime 2024 1 2 0 0) S2S3Submit.sample_world
              true eq_refl ltac:(vm_compute; reflexivity))
    as (p & w1 & code & w' & _ & Hr & _ & _ & _ & Hzero & _).
  exists w'. rewrite Hr.
  assert (Hc : code = 0).
  { apply Hzero. split; [vm_compute; reflexivity|].
    left. vm_compute. reflexivity. }
  rewrite Hc. reflexivity.
Defined.


